(** * Blockly.Undoredo (core/undoredo.js)

    A shallow embedding of the undo/redo overlay widget of the Blockly
    workspace, and the properties of its lifecycle operations
    [createDom], [init], [position], [dispose] and of its mouse handlers.

    Modelling conventions.
    - JavaScript numbers that hold pixel distances are integers ([Z]),
      and [+] and [-] are those of [Z].  The source computes in IEEE 754
      binary64, where a sum or difference of integers is exact as long
      as the operands and the result are safe integers (magnitude at
      most 2^53 - 1), and where such an integer prints as its decimal
      digits.  Every statement below about a value that the code
      computes carries that bound as a hypothesis ([exact_init],
      [exact_right_edge], [exact_left_edge], [exact_bottom_edge]);
      [Binary64] has the source's arithmetic itself, for what lies
      beyond.
    - A field that may hold [null] or [undefined] is an [option].
    - The widget ([this]), the host workspace, the DOM nodes and the
      console live in one explicit [State]; every operation is a state
      transformer that either completes normally or throws, and a throw
      keeps the assignments made before it (as in JavaScript).
    - Calls into the host workspace are appended to its [callLog], so
      that "which workspace methods ran" is observable.
    - The host's own code ([getMetrics], [undo], the DOM and the event
      helpers) completes whenever it is reached; what can fail inside the
      widget is a property access or a method call on [null]. *)

From stdpp Require Import base option list strings gmap pretty.
From Stdlib Require Import ZArith Lia.
From Stdlib Require Floats.SpecFloat.

Local Open Scope Z_scope.

(** ** The host side: metrics and workspace *)

(** What [workspace.getMetrics()] hands out (the fields [position] reads). *)
Record Metrics := {
  viewWidth : Z;
  viewHeight : Z;
  absoluteLeft : Z;
  absoluteTop : Z;
  toolboxPosition : Z
}.

(** The two workspace methods the widget is able to invoke. *)
Inductive WsCall :=
| CallGetMetrics
| CallUndo (redo : bool).

(** The host workspace object.  [metricsNow] is what a metrics query
    answers at this moment ([None]: null, the workspace is not visible). *)
Record WorkspaceSvg := {
  metricsNow : option Metrics;
  horizontalLayout : bool;
  RTL : bool;
  callLog : list WsCall
}.

(** The page hosts one workspace; a reference to it is that object or
    null ([None]). *)
Inductive WorkspaceRef := theWorkspace.

(** ** The DOM *)

(** The prototype methods that [createDom] binds as listeners. *)
Module Method.
Inductive t :=
| undoMouseDown_ | undoMouseUp_ | undoMouseOver_ | undoMouseOut_
| redoMouseDown_ | redoMouseUp_ | redoMouseOver_ | redoMouseOut_.
End Method.

(** An element.  Elements are referred to by their index in [document];
    the child relation is the inverse of [parentNode]. *)
Record Node := {
  tagName : string;
  attributes : gmap string string;
  textContent : string;
  parentNode : option nat;
  listeners : list (string * Method.t)
}.

(** ** The widget object *)

(** The own and inherited fields of a [Blockly.Undoredo] instance.
    [verticalSpacing_] is absent from the prototype: it is [undefined]
    ([None]) until [init] assigns it. *)
Record Undoredo := {
  workspace_ : option WorkspaceRef;
  svgGroup_ : option nat;
  left_ : Z;
  top_ : Z;
  verticalSpacing_ : option Z
}.

Definition WIDTH_ : Z := 47.
Definition BODY_HEIGHT_ : Z := 44.
Definition MARGIN_BOTTOM_ : Z := 20.
Definition MARGIN_SIDE_ : Z := 20.
Definition MARGIN_HOTSPOT_ : Z := 10.

(** [new Blockly.Undoredo(workspace)]: the constructor stores the
    workspace; every other field comes from the prototype. *)
Definition new_Undoredo (workspace : option WorkspaceRef) : Undoredo :=
  {| workspace_ := workspace;
     svgGroup_ := None;
     left_ := 0;
     top_ := 0;
     verticalSpacing_ := None |}.

(** ** Program state and the effect monad *)

Record State := {
  this : Undoredo;
  workspace : WorkspaceSvg;
  document : list Node;
  console : list string
}.

Inductive Error := TypeError.

Inductive Completion (A : Type) :=
| Normal (a : A)
| Throw (e : Error).
Arguments Normal {A} a.
Arguments Throw {A} e.

Definition Js (A : Type) : Type := State -> State * Completion A.

Definition ret {A} (a : A) : Js A := fun s => (s, Normal a).

Definition throw {A} (e : Error) : Js A := fun s => (s, Throw e).

Definition bind {A B} (c : Js A) (k : A -> Js B) : Js B :=
  fun s =>
    match c s with
    | (s', Normal a) => k a s'
    | (s', Throw e) => (s', Throw e)
    end.

Declare Scope js_scope.
Delimit Scope js_scope with js.
Notation "x <- c ;; k" := (bind c (fun x => k))
  (at level 100, c at next level, right associativity) : js_scope.
Notation "c ;; k" := (bind c (fun _ => k))
  (at level 100, right associativity) : js_scope.
Local Open Scope js_scope.

Definition getThis : Js Undoredo := fun s => (s, Normal (this s)).

Definition setThis (f : Undoredo -> Undoredo) : Js unit :=
  fun s =>
    ({| this := f (this s);
        workspace := workspace s;
        document := document s;
        console := console s |}, Normal tt).

Definition setDocument (f : list Node -> list Node) : Js unit :=
  fun s =>
    ({| this := this s;
        workspace := workspace s;
        document := f (document s);
        console := console s |}, Normal tt).

(** What ran, and the state it left behind. *)
Definition outcome {A} (r : State * Completion A) : Completion A := snd r.
Definition after {A} (r : State * Completion A) : State := fst r.

(** *** Field assignments of [this] *)

Definition assign_workspace_ (v : option WorkspaceRef) (w : Undoredo) : Undoredo :=
  {| workspace_ := v; svgGroup_ := svgGroup_ w; left_ := left_ w;
     top_ := top_ w; verticalSpacing_ := verticalSpacing_ w |}.

Definition assign_svgGroup_ (v : option nat) (w : Undoredo) : Undoredo :=
  {| workspace_ := workspace_ w; svgGroup_ := v; left_ := left_ w;
     top_ := top_ w; verticalSpacing_ := verticalSpacing_ w |}.

Definition assign_left_ (v : Z) (w : Undoredo) : Undoredo :=
  {| workspace_ := workspace_ w; svgGroup_ := svgGroup_ w; left_ := v;
     top_ := top_ w; verticalSpacing_ := verticalSpacing_ w |}.

Definition assign_top_ (v : Z) (w : Undoredo) : Undoredo :=
  {| workspace_ := workspace_ w; svgGroup_ := svgGroup_ w; left_ := left_ w;
     top_ := v; verticalSpacing_ := verticalSpacing_ w |}.

Definition assign_verticalSpacing_ (v : option Z) (w : Undoredo) : Undoredo :=
  {| workspace_ := workspace_ w; svgGroup_ := svgGroup_ w; left_ := left_ w;
     top_ := top_ w; verticalSpacing_ := v |}.

(** *** The host workspace, seen through a reference *)

Definition is_null {A} (r : option A) : bool :=
  match r with
  | Some _ => false
  | None => true
  end.

(** Property access or method call on a reference: a TypeError on null. *)
Definition deref {A} (r : option A) : Js A :=
  match r with
  | Some a => ret a
  | None => throw TypeError
  end.

Definition logCall (c : WsCall) : Js unit :=
  fun s =>
    ({| this := this s;
        workspace :=
          {| metricsNow := metricsNow (workspace s);
             horizontalLayout := horizontalLayout (workspace s);
             RTL := RTL (workspace s);
             callLog := callLog (workspace s) ++ [c] |};
        document := document s;
        console := console s |}, Normal tt).

(** [ws.getMetrics()] *)
Definition getMetrics (ws : WorkspaceRef) : Js (option Metrics) :=
  logCall CallGetMetrics ;;
  fun s => (s, Normal (metricsNow (workspace s))).

(** [ws.undo(redo)]: the undo stack belongs to the host; the call is
    recorded. *)
Definition undo (ws : WorkspaceRef) (redo : bool) : Js unit :=
  logCall (CallUndo redo).

(** [ws.horizontalLayout] and [ws.RTL] *)
Definition get_horizontalLayout (ws : WorkspaceRef) : Js bool :=
  fun s => (s, Normal (horizontalLayout (workspace s))).

Definition get_RTL (ws : WorkspaceRef) : Js bool :=
  fun s => (s, Normal (RTL (workspace s))).

(** [console.log(msg)] *)
Definition console_log (msg : string) : Js unit :=
  fun s =>
    ({| this := this s;
        workspace := workspace s;
        document := document s;
        console := console s ++ [msg] |}, Normal tt).

(** *** DOM primitives *)

Definition Element (name : string) (attrs : list (string * string))
    (parent : option nat) : Node :=
  {| tagName := name;
     attributes := list_to_map attrs;
     textContent := EmptyString;
     parentNode := parent;
     listeners := [] |}.

(** Modelled from the spec: [Blockly.utils.dom.createSvgElement] is not
    among the sources.  The spec has [createDom] build visual elements
    under a root visual group: the helper makes an element with the given
    tag and attributes, hangs it under [opt_parent] when one is given,
    and returns it. *)
Definition createSvgElement (name : string) (attrs : list (string * string))
    (opt_parent : option nat) : Js nat :=
  fun s =>
    ({| this := this s;
        workspace := workspace s;
        document := document s ++ [Element name attrs opt_parent];
        console := console s |}, Normal (length (document s))).

(** [e.textContent = text] *)
Definition set_textContent (e : nat) (text : string) : Js unit :=
  setDocument (alter (fun n =>
    {| tagName := tagName n; attributes := attributes n;
       textContent := text; parentNode := parentNode n;
       listeners := listeners n |}) e).

(** [e.setAttribute(name, value)] *)
Definition setAttribute (e : nat) (name value : string) : Js unit :=
  setDocument (alter (fun n =>
    {| tagName := tagName n; attributes := <[name := value]> (attributes n);
       textContent := textContent n; parentNode := parentNode n;
       listeners := listeners n |}) e).

(** Modelled from the spec: [Blockly.bindEvent_] is not among the
    sources.  The spec has [createDom] bind press, release, hover-enter
    and hover-exit handlers to each element: the helper registers the
    method, with the widget as receiver, as a listener of the element for
    the named event. *)
Definition bindEvent_ (node : nat) (name : string) (func : Method.t) : Js unit :=
  setDocument (alter (fun n =>
    {| tagName := tagName n; attributes := attributes n;
       textContent := textContent n; parentNode := parentNode n;
       listeners := listeners n ++ [(name, func)] |}) node).

(** Modelled from the spec: [Blockly.utils.dom.removeNode] is not among
    the sources.  The spec has [dispose] detach the root visual node: the
    helper unlinks the node from its parent. *)
Definition removeNode (node : nat) : Js unit :=
  setDocument (alter (fun n =>
    {| tagName := tagName n; attributes := attributes n;
       textContent := textContent n; parentNode := None;
       listeners := listeners n |}) node).

(** [parent.appendChild(child)], for a [child] that hangs nowhere yet. *)
Definition appendChild (parent child : nat) : Js unit :=
  setDocument (alter (fun n =>
    {| tagName := tagName n; attributes := attributes n;
       textContent := textContent n; parentNode := Some parent;
       listeners := listeners n |}) child).

(** The methods listening on a node for an event, in binding order. *)
Definition listeners_for (name : string) (n : Node) : list Method.t :=
  (filter (fun l => l.1 = name) (listeners n)).*2.

(** A node is in the DOM of the page when it hangs under some parent. *)
Definition attached (e : nat) (s : State) : bool :=
  match document s !! e with
  | Some n => negb (is_null (parentNode n))
  | None => false
  end.

(** The [transform] attribute of the widget's root group, if any. *)
Definition transform_of (s : State) : option string :=
  g ← svgGroup_ (this s); n ← document s !! g; attributes n !! "transform"%string.

(** ** The widget's operations *)

(** [createDom()].  [rnd] stands for the digits produced by
    [String(Math.random()).substring(2)]. *)
Definition createDom (rnd : string) : Js (option nat) :=
  g <- createSvgElement "g" [("class", "blocklyUndoredo")] None ;;
  setThis (assign_svgGroup_ (Some g)) ;;
  self <- getThis ;;
  undo <- createSvgElement "text"
            [("id", "blocklyUndoText" +:+ rnd); ("style", "fill: #aaa;")]
            (svgGroup_ self) ;;
  set_textContent undo "Undo" ;;
  self <- getThis ;;
  redo <- createSvgElement "text"
            [("id", "blocklyRedoText" +:+ rnd); ("style", "fill: #aaa;");
             ("y", pretty 30)]
            (svgGroup_ self) ;;
  set_textContent redo "Redo" ;;
  bindEvent_ undo "mousedown" Method.undoMouseDown_ ;;
  bindEvent_ undo "mouseup" Method.undoMouseUp_ ;;
  bindEvent_ undo "mouseover" Method.undoMouseOver_ ;;
  bindEvent_ undo "mouseout" Method.undoMouseOut_ ;;
  bindEvent_ redo "mousedown" Method.redoMouseDown_ ;;
  bindEvent_ redo "mouseup" Method.redoMouseUp_ ;;
  bindEvent_ redo "mouseover" Method.redoMouseOver_ ;;
  bindEvent_ redo "mouseout" Method.redoMouseOut_ ;;
  self <- getThis ;;
  ret (svgGroup_ self).

(** [init(verticalSpacing)] *)
Definition init (verticalSpacing : Z) : Js Z :=
  let spacing := MARGIN_BOTTOM_ + verticalSpacing in
  setThis (assign_verticalSpacing_ (Some spacing)) ;;
  ret (spacing + BODY_HEIGHT_).

(** [dispose()] *)
Definition dispose : Js unit :=
  self <- getThis ;;
  match svgGroup_ self with
  | Some g =>
      removeNode g ;;
      setThis (assign_svgGroup_ None)
  | None => ret tt
  end ;;
  setThis (assign_workspace_ None).

(** The test [position] makes before anything else, under the source's
    comment "Not yet initialized": [this.verticalSpacing_] is truthy,
    that is neither [undefined] nor [0]. *)
Definition initialized (w : Undoredo) : bool :=
  match verticalSpacing_ w with
  | Some spacing => negb (spacing =? 0)
  | None => false
  end.

(** ** Numbers *)

(** [Number.MAX_SAFE_INTEGER] and [Number.isSafeInteger] on integers. *)
Definition MAX_SAFE_INTEGER : Z := 2 ^ 53 - 1.

Definition safe (z : Z) : bool :=
  (- MAX_SAFE_INTEGER <=? z) && (z <=? MAX_SAFE_INTEGER).

(** The two additions of [init] (lines 162-163) are exact: the argument
    and both sums are safe integers. *)
Definition exact_init (verticalSpacing : Z) : bool :=
  safe verticalSpacing
  && safe (MARGIN_BOTTOM_ + verticalSpacing)
  && safe (MARGIN_BOTTOM_ + verticalSpacing + BODY_HEIGHT_).

(** The arithmetic of the source on binary64 numbers, after the
    Standard Library's specification of IEEE 754 (precision 53, round to
    nearest, ties to even). *)
Module Binary64.

Definition number : Set := SpecFloat.spec_float.

Definition prec : Z := 53.
Definition emax : Z := 1024.

(** The number nearest to [m * 2^e], and to an integer. *)
Definition scaled (m e : Z) : number :=
  SpecFloat.binary_normalize prec emax m e false.

Definition of_Z (z : Z) : number := scaled z 0.

(** [x + y] and [x === y] *)
Definition add (x y : number) : number := SpecFloat.SFadd prec emax x y.

Definition eqb (x y : number) : bool := SpecFloat.SFeqb x y.

(** The integer a number is, when it is one. *)
Definition to_Z (x : number) : option Z :=
  match x with
  | SpecFloat.S754_zero _ => Some 0
  | SpecFloat.S754_finite sign m e =>
      let magnitude :=
        if 0 <=? e then Some (Z.pos m * 2 ^ e)
        else if Z.pos m mod 2 ^ (- e) =? 0 then Some (Z.pos m / 2 ^ (- e))
        else None in
      (if sign then Z.opp else id) <$> magnitude
  | _ => None
  end.

(** Lines 162-163 of [init] on numbers: the spacing it stores and the
    extent it returns. *)
Definition init_arithmetic (verticalSpacing : number) : number * number :=
  let spacing := add (of_Z MARGIN_BOTTOM_) verticalSpacing in
  (spacing, add spacing (of_Z BODY_HEIGHT_)).

End Binary64.

Section Widget.

(** Constants of the host toolkit that are not among the sources:
    [Blockly.TOOLBOX_AT_LEFT], [Blockly.TOOLBOX_AT_BOTTOM] and
    [Blockly.Scrollbar.scrollbarThickness]. *)
Variables TOOLBOX_AT_LEFT TOOLBOX_AT_BOTTOM scrollbarThickness : Z.

(** The text of the transform: ['translate(' + left + ',' + top + ')']. *)
Definition translate (left top : Z) : string :=
  "translate(" +:+ pretty left +:+ "," +:+ pretty top +:+ ")".

(** [position()] *)
Definition position : Js unit :=
  self <- getThis ;;
  match verticalSpacing_ self with
  | None => ret tt
  | Some verticalSpacing =>
    if verticalSpacing =? 0 then ret tt else
    ws <- deref (workspace_ self) ;;
    metrics <- getMetrics ws ;;
    match metrics with
    | None => ret tt
    | Some metrics =>
      horizontal <- get_horizontalLayout ws ;;
      rtl <- get_RTL ws ;;
      (if (toolboxPosition metrics =? TOOLBOX_AT_LEFT)
          || (horizontal && negb rtl)
       then setThis (assign_left_
              (viewWidth metrics + absoluteLeft metrics
               - WIDTH_ - MARGIN_SIDE_ - scrollbarThickness))
       else setThis (assign_left_ (MARGIN_SIDE_ + scrollbarThickness))) ;;
      (if toolboxPosition metrics =? TOOLBOX_AT_BOTTOM
       then setThis (assign_top_ verticalSpacing)
       else setThis (assign_top_
              (viewHeight metrics + absoluteTop metrics
               - BODY_HEIGHT_ - verticalSpacing))) ;;
      self <- getThis ;;
      g <- deref (svgGroup_ self) ;;
      setAttribute g "transform" (translate (left_ self) (top_ self))
    end
  end.

(** The arithmetic of [position] is exact: the metrics, the scrollbar
    thickness, the spacing and every partial result are safe integers.
    One condition per computed coordinate: the left offset at the right
    edge (lines 197-198), the left offset at the left edge (line 201),
    the top offset at the bottom edge (lines 207-208). *)
Definition exact_right_edge (metrics : Metrics) : bool :=
  safe (viewWidth metrics)
  && safe (absoluteLeft metrics)
  && safe scrollbarThickness
  && safe (viewWidth metrics + absoluteLeft metrics)
  && safe (viewWidth metrics + absoluteLeft metrics - WIDTH_)
  && safe (viewWidth metrics + absoluteLeft metrics - WIDTH_ - MARGIN_SIDE_)
  && safe (viewWidth metrics + absoluteLeft metrics - WIDTH_ - MARGIN_SIDE_
           - scrollbarThickness).

Definition exact_left_edge : bool :=
  safe scrollbarThickness && safe (MARGIN_SIDE_ + scrollbarThickness).

Definition exact_bottom_edge (metrics : Metrics) (verticalSpacing : Z) : bool :=
  safe (viewHeight metrics)
  && safe (absoluteTop metrics)
  && safe verticalSpacing
  && safe (viewHeight metrics + absoluteTop metrics)
  && safe (viewHeight metrics + absoluteTop metrics - BODY_HEIGHT_)
  && safe (viewHeight metrics + absoluteTop metrics - BODY_HEIGHT_
           - verticalSpacing).

(** The mouse handlers. *)
Definition undoMouseDown_ : Js unit :=
  console_log "undo mouse down event" ;;
  self <- getThis ;;
  ws <- deref (workspace_ self) ;;
  undo ws false.

Definition undoMouseUp_ : Js unit := ret tt.
Definition undoMouseOver_ : Js unit := ret tt.
Definition undoMouseOut_ : Js unit := ret tt.

Definition redoMouseDown_ : Js unit :=
  console_log "redo mouse down event" ;;
  self <- getThis ;;
  ws <- deref (workspace_ self) ;;
  undo ws true.

Definition redoMouseUp_ : Js unit := ret tt.
Definition redoMouseOver_ : Js unit := ret tt.
Definition redoMouseOut_ : Js unit := ret tt.

(** Invoking a bound listener, with the widget as receiver. *)
Definition call (m : Method.t) : Js unit :=
  match m with
  | Method.undoMouseDown_ => undoMouseDown_
  | Method.undoMouseUp_ => undoMouseUp_
  | Method.undoMouseOver_ => undoMouseOver_
  | Method.undoMouseOut_ => undoMouseOut_
  | Method.redoMouseDown_ => redoMouseDown_
  | Method.redoMouseUp_ => redoMouseUp_
  | Method.redoMouseOver_ => redoMouseOver_
  | Method.redoMouseOut_ => redoMouseOut_
  end.

(** ** The lifecycle, as the host drives it *)

Inductive Op :=
| OpCreateDom (rnd : string)
| OpInit (verticalSpacing : Z)
| OpPosition
| OpDispose
| OpEvent (m : Method.t).

Definition step (op : Op) : Js unit :=
  match op with
  | OpCreateDom rnd => createDom rnd ;; ret tt
  | OpInit verticalSpacing => init verticalSpacing ;; ret tt
  | OpPosition => position
  | OpDispose => dispose
  | OpEvent m => call m
  end.

(** The host makes one call after the other; an exception ends the call
    it was raised in and the state stays as that call left it. *)
Definition run (ops : list Op) (s : State) : State :=
  fold_left (fun s op => after (step op s)) ops s.

Definition is_init (op : Op) : bool :=
  match op with
  | OpInit _ => true
  | _ => false
  end.

(** When a call throws: [position] past its first test with a null
    workspace, or with metrics at hand and a null root group; a mousedown
    handler with a null workspace. *)
Definition throws (op : Op) (s : State) : bool :=
  match op with
  | OpPosition =>
      initialized (this s)
      && (is_null (workspace_ (this s))
          || (negb (is_null (metricsNow (workspace s)))
              && is_null (svgGroup_ (this s))))
  | OpEvent Method.undoMouseDown_ | OpEvent Method.redoMouseDown_ =>
      is_null (workspace_ (this s))
  | _ => false
  end.

(** A page with nothing in it yet, around a freshly constructed widget. *)
Definition new_page (ws : WorkspaceSvg) : State :=
  {| this := new_Undoredo (Some theWorkspace);
     workspace := ws;
     document := [];
     console := [] |}.

(** A visible workspace with its toolbox on the left (the toolkit's
    [TOOLBOX_AT_LEFT] is 2, [TOOLBOX_AT_BOTTOM] is 1), one with the
    toolbox at the bottom, and a workspace that is not shown. *)
Definition metrics_left : Metrics :=
  {| viewWidth := 800; viewHeight := 600;
     absoluteLeft := 100; absoluteTop := 0; toolboxPosition := 2 |}.

Definition metrics_bottom : Metrics :=
  {| viewWidth := 800; viewHeight := 600;
     absoluteLeft := 0; absoluteTop := 0; toolboxPosition := 1 |}.

Definition metrics_right : Metrics :=
  {| viewWidth := 800; viewHeight := 600;
     absoluteLeft := 0; absoluteTop := 0; toolboxPosition := 3 |}.

Definition showing (m : Metrics) : WorkspaceSvg :=
  {| metricsNow := Some m; horizontalLayout := false; RTL := false;
     callLog := [] |}.

Definition hidden : WorkspaceSvg :=
  {| metricsNow := None; horizontalLayout := false; RTL := false;
     callLog := [] |}.

(** A widget constructed on a page, with its DOM built and [init(0)]
    done. *)
Definition ready (ws : WorkspaceSvg) : State :=
  after (init 0 (after (createDom "4821" (new_page ws)))).

(** The host inserting the root group of a widget into a container of
    its own. *)
Definition mount (container : string) (s : State) : State :=
  after ((parent <- createSvgElement container [] None ;;
          self <- getThis ;;
          match svgGroup_ self with
          | Some g => appendChild parent g
          | None => ret tt
          end) s).

(** A widget with its DOM built and not yet initialized. *)
Definition mounted_page (ws : WorkspaceSvg) : State :=
  after (createDom "4821" (new_page ws)).

(** A ready widget after [dispose], and a widget that was initialized
    without its DOM ever being built. *)
Definition disposed : State :=
  after (dispose (ready (showing metrics_left))).

Definition without_dom : State :=
  after (init 0 (new_page (showing metrics_left))).

Definition is_position (op : Op) : bool :=
  match op with
  | OpPosition => true
  | _ => false
  end.

Definition is_dispose (op : Op) : bool :=
  match op with
  | OpDispose => true
  | _ => false
  end.

(** A press on "Undo" ([false]) or on "Redo" ([true]): the mousedown
    listener of that text element runs. *)
Definition press (redo : bool) : Op :=
  OpEvent (if redo then Method.redoMouseDown_ else Method.undoMouseDown_).

(** How each call of a sequence ended, in order. *)
Fixpoint outcomes (ops : list Op) (s : State) : list (Completion unit) :=
  match ops with
  | [] => []
  | op :: ops => outcome (step op s) :: outcomes ops (after (step op s))
  end.

(** ** Properties *)

Ltac js_unfold :=
  unfold step, position, dispose, init, call, undoMouseDown_, undoMouseUp_,
    undoMouseOver_, undoMouseOut_, redoMouseDown_, redoMouseUp_,
    redoMouseOver_, redoMouseOut_, getMetrics, undo, get_horizontalLayout,
    get_RTL, console_log, logCall, removeNode, setAttribute, deref, setThis,
    setDocument, getThis, bind, ret, throw, outcome, after in *.

Ltac open_state s :=
  let w := fresh "w" in
  let g := fresh "g" in
  destruct s as [[w g ? ? ?] [? ? ? ?] ? ?]; simpl in *; subst.

Lemma initialized_spacing (w : Undoredo) :
  initialized w = true ->
  exists spacing, verticalSpacing_ w = Some spacing /\ spacing <> 0.
Proof.
  unfold initialized. destruct (verticalSpacing_ w) as [v|]; [|done].
  intros H. exists v. split; [done|].
  intros ->. discriminate.
Qed.

(** C2, as the code has it.  For every integer [v] for which the two
    additions of [init] are exact (the argument, [20 + v] and [v + 64]
    are safe integers), [init v] returns the bottom margin plus [v] plus
    the body height, which is [v + 64], completes normally, and leaves
    [20 + v] recorded as the vertical spacing; no other field, node or
    host object changes. *)
Theorem init_returns_extent (v : Z) (s : State) :
  exact_init v = true ->
  outcome (init v s) = Normal (MARGIN_BOTTOM_ + v + BODY_HEIGHT_)
  /\ MARGIN_BOTTOM_ + v + BODY_HEIGHT_ = v + 64
  /\ verticalSpacing_ (this (after (init v s))) = Some (20 + v)
  /\ after (init v s) =
       {| this := assign_verticalSpacing_ (Some (20 + v)) (this s);
          workspace := workspace s;
          document := document s;
          console := console s |}.
Proof.
  intros _.
  js_unfold. unfold MARGIN_BOTTOM_, BODY_HEIGHT_. simpl.
  repeat split. lia.
Qed.

(** What [position] does once it is past both of its early returns. *)
Lemma position_placed (s : State) (ws : WorkspaceRef) (m : Metrics) (spacing : Z) :
  verticalSpacing_ (this s) = Some spacing ->
  spacing <> 0 ->
  workspace_ (this s) = Some ws ->
  metricsNow (workspace s) = Some m ->
  let left :=
    if (toolboxPosition m =? TOOLBOX_AT_LEFT)
       || (horizontalLayout (workspace s) && negb (RTL (workspace s)))
    then viewWidth m + absoluteLeft m - WIDTH_ - MARGIN_SIDE_ - scrollbarThickness
    else MARGIN_SIDE_ + scrollbarThickness in
  let top :=
    if toolboxPosition m =? TOOLBOX_AT_BOTTOM
    then spacing
    else viewHeight m + absoluteTop m - BODY_HEIGHT_ - spacing in
  this (after (position s)) = assign_top_ top (assign_left_ left (this s))
  /\ outcome (position s) =
       match svgGroup_ (this s) with
       | Some _ => Normal tt
       | None => Throw TypeError
       end.
Proof.
  intros Hv Hne Hws Hm. open_state s. js_unfold. simpl.
  destruct (Z.eqb_spec spacing 0) as [|_]; [done|]. simpl.
  destruct (_ || _), (_ =? TOOLBOX_AT_BOTTOM); simpl; destruct g; simpl; done.
Qed.

(** C3. For every initialized widget that holds its workspace, when the
    metrics report the toolbox at the left, or the workspace is laid out
    horizontally and left to right, [position] sets the left offset to
    [viewWidth + absoluteLeft - WIDTH_ - MARGIN_SIDE_ - scrollbarThickness],
    with [WIDTH_ = 47] and [MARGIN_SIDE_ = 20].  The metrics, the
    scrollbar thickness and the partial results of that expression are
    safe integers, so that the source computes it exactly. *)
Theorem position_left_when_toolbox_at_left
    (s : State) (ws : WorkspaceRef) (m : Metrics) :
  initialized (this s) = true ->
  workspace_ (this s) = Some ws ->
  metricsNow (workspace s) = Some m ->
  exact_right_edge m = true ->
  toolboxPosition m = TOOLBOX_AT_LEFT
  \/ (horizontalLayout (workspace s) = true /\ RTL (workspace s) = false) ->
  left_ (this (after (position s)))
  = viewWidth m + absoluteLeft m - 47 - 20 - scrollbarThickness.
Proof.
  intros Hi Hws Hm _ Hc.
  destruct (initialized_spacing _ Hi) as (v & Hv & Hne).
  destruct (position_placed s ws m v Hv Hne Hws Hm) as [-> _]. simpl.
  destruct Hc as [->|[-> ->]].
  - by rewrite Z.eqb_refl.
  - by rewrite orb_true_r.
Qed.

(** C4. For every initialized widget that holds its workspace, when the
    metrics report the toolbox at the bottom, [position] sets the top
    offset to the recorded vertical spacing, the value [init] stored. *)
Theorem position_top_when_toolbox_at_bottom
    (s : State) (ws : WorkspaceRef) (m : Metrics) :
  initialized (this s) = true ->
  workspace_ (this s) = Some ws ->
  metricsNow (workspace s) = Some m ->
  toolboxPosition m = TOOLBOX_AT_BOTTOM ->
  Some (top_ (this (after (position s)))) = verticalSpacing_ (this s).
Proof.
  intros Hi Hws Hm Hc.
  destruct (initialized_spacing _ Hi) as (v & Hv & Hne).
  destruct (position_placed s ws m v Hv Hne Hws Hm) as [-> _]. simpl.
  by rewrite Hc, Z.eqb_refl.
Qed.

(** C5. For every initialized widget that holds its workspace and whose
    metrics are available: when the toolbox is not at the left and the
    layout is not horizontal left-to-right, [position] sets the left
    offset to [MARGIN_SIDE_ + scrollbarThickness] ([MARGIN_SIDE_ = 20]);
    and when the toolbox is not at the bottom, it sets the top offset to
    [viewHeight + absoluteTop - BODY_HEIGHT_ - spacing]
    ([BODY_HEIGHT_ = 44]), [spacing] being the recorded vertical
    spacing.  In each case the operands and the partial results of the
    expression are safe integers, so that the source computes it
    exactly. *)
Theorem position_opposite_corner
    (s : State) (ws : WorkspaceRef) (m : Metrics) (spacing : Z) :
  initialized (this s) = true ->
  verticalSpacing_ (this s) = Some spacing ->
  workspace_ (this s) = Some ws ->
  metricsNow (workspace s) = Some m ->
  (toolboxPosition m <> TOOLBOX_AT_LEFT ->
   ~ (horizontalLayout (workspace s) = true /\ RTL (workspace s) = false) ->
   exact_left_edge = true ->
   left_ (this (after (position s))) = 20 + scrollbarThickness)
  /\ (toolboxPosition m <> TOOLBOX_AT_BOTTOM ->
      exact_bottom_edge m spacing = true ->
      top_ (this (after (position s)))
      = viewHeight m + absoluteTop m - 44 - spacing).
Proof.
  intros Hi Hv Hws Hm.
  destruct (initialized_spacing _ Hi) as (v & Hv' & Hne).
  assert (v = spacing) as -> by congruence.
  destruct (position_placed s ws m spacing Hv Hne Hws Hm) as [-> _]. simpl.
  split.
  - intros Hl Hh _.
    destruct (Z.eqb_spec (toolboxPosition m) TOOLBOX_AT_LEFT); [done|].
    destruct (horizontalLayout (workspace s)), (RTL (workspace s)); simpl;
      try done.
    destruct Hh; done.
  - intros Hb _.
    by destruct (Z.eqb_spec (toolboxPosition m) TOOLBOX_AT_BOTTOM).
Qed.

(** [position] on a widget that fails the first test does nothing at all. *)
Lemma position_not_initialized (s : State) :
  initialized (this s) = false -> position s = (s, Normal tt).
Proof.
  unfold initialized. intros H. js_unfold.
  destruct (verticalSpacing_ (this s)) as [v|]; [|done].
  apply negb_false_iff in H. by rewrite H.
Qed.

(** C6. For every widget on which [init] has not been called (the
    vertical spacing is still undefined), [position] is a no-op: it
    completes normally and the whole state is as before, so neither the
    stored coordinates nor the transform of the root group change, and
    no metrics query reaches the workspace. *)
Theorem position_before_init_is_noop (s : State) :
  verticalSpacing_ (this s) = None ->
  position s = (s, Normal tt)
  /\ left_ (this (after (position s))) = left_ (this s)
  /\ top_ (this (after (position s))) = top_ (this s)
  /\ transform_of (after (position s)) = transform_of s
  /\ callLog (workspace (after (position s))) = callLog (workspace s).
Proof.
  intros H.
  assert (position s = (s, Normal tt)) as ->.
  { apply position_not_initialized. unfold initialized. by rewrite H. }
  done.
Qed.

(** C7. For every initialized widget that holds its workspace, if the
    metrics query answers null, [position] returns normally, having only
    made that query: the widget's fields (so the stored left and top
    coordinates), every node (so the transform of the root group) and
    the console are as before. *)
Theorem position_without_metrics_is_noop (s : State) (ws : WorkspaceRef) :
  initialized (this s) = true ->
  workspace_ (this s) = Some ws ->
  metricsNow (workspace s) = None ->
  outcome (position s) = Normal tt
  /\ this (after (position s)) = this s
  /\ document (after (position s)) = document s
  /\ transform_of (after (position s)) = transform_of s
  /\ console (after (position s)) = console s
  /\ callLog (workspace (after (position s)))
     = callLog (workspace s) ++ [CallGetMetrics].
Proof.
  intros Hi Hws Hm.
  destruct (initialized_spacing _ Hi) as (v & Hv & Hne).
  open_state s. js_unfold. simpl.
  by destruct (Z.eqb_spec v 0).
Qed.

(** The node a root group reference points at has no parent after
    [removeNode]. *)
Lemma removeNode_detaches (g : nat) (s : State) :
  attached g (after (removeNode g s)) = false.
Proof.
  unfold attached. js_unfold. simpl.
  rewrite list_lookup_alter_eq.
  by destruct (document s !! g).
Qed.

(** C8. For every widget, [dispose] completes normally; afterwards the
    root group and the workspace references are both null, and the node
    the root group reference pointed at hangs under no parent (when
    there was no root group the nodes are left alone).  A second
    [dispose] completes normally as well and changes nothing, so both
    references stay null. *)
Theorem dispose_clears_references (s : State) :
  let s1 := after (dispose s) in
  outcome (dispose s) = Normal tt
  /\ svgGroup_ (this s1) = None
  /\ workspace_ (this s1) = None
  /\ match svgGroup_ (this s) with
     | Some g => attached g s1 = false
     | None => document s1 = document s
     end
  /\ dispose s1 = (s1, Normal tt).
Proof.
  destruct (svgGroup_ (this s)) as [g|] eqn:Hg.
  - pose proof (removeNode_detaches g s) as Hd.
    unfold attached in *. js_unfold. rewrite Hg. simpl in *. done.
  - js_unfold. rewrite Hg. simpl. rewrite Hg. done.
Qed.

(** The three nodes [createDom] builds: the root group and the two
    text elements with their listeners, appended to the nodes that were
    there. *)
Lemma createDom_document (rnd : string) (s : State) :
  let g := length (document s) in
  document (after (createDom rnd s)) =
  document s ++
  [ Element "g" [("class", "blocklyUndoredo")] None;
    {| tagName := "text";
       attributes := list_to_map
         [("id", "blocklyUndoText" +:+ rnd); ("style", "fill: #aaa;")];
       textContent := "Undo";
       parentNode := Some g;
       listeners := [("mousedown", Method.undoMouseDown_);
                     ("mouseup", Method.undoMouseUp_);
                     ("mouseover", Method.undoMouseOver_);
                     ("mouseout", Method.undoMouseOut_)] |};
    {| tagName := "text";
       attributes := list_to_map
         [("id", "blocklyRedoText" +:+ rnd); ("style", "fill: #aaa;");
          ("y", "30")];
       textContent := "Redo";
       parentNode := Some g;
       listeners := [("mousedown", Method.redoMouseDown_);
                     ("mouseup", Method.redoMouseUp_);
                     ("mouseover", Method.redoMouseOver_);
                     ("mouseout", Method.redoMouseOut_)] |} ].
Proof.
  destruct s as [t w d c].
  lazy beta iota zeta delta
    [createDom createSvgElement set_textContent bindEvent_ bind ret getThis
     setThis setDocument after outcome fst snd this document workspace
     console svgGroup_ assign_svgGroup_].
  assert (forall (f : Node -> Node) (k : nat) (l' : list Node),
    alter f (length d + k)%nat (d ++ l') = d ++ alter f k l') as Halter.
  { intros f k l'. apply alter_app_r. }
  repeat (rewrite ?length_alter, ?length_app; cbn [length]).
  replace (length d + 1 + 1)%nat with (length d + 2)%nat by lia.
  repeat match goal with
  | |- context [alter ?f (length d + ?k)%nat (d ++ ?l)] =>
      rewrite (Halter f k l);
      cbn [alter list_alter app Element tagName attributes textContent
           parentNode listeners]
  | |- context [(d ++ ?m) ++ ?n] =>
      rewrite <- (app_assoc d m n); cbn [app]
  end.
  reflexivity.
Qed.

(** Apart from the nodes, [createDom] only assigns the root group. *)
Lemma createDom_frame (rnd : string) (s : State) :
  outcome (createDom rnd s) = Normal (Some (length (document s)))
  /\ this (after (createDom rnd s))
     = assign_svgGroup_ (Some (length (document s))) (this s)
  /\ workspace (after (createDom rnd s)) = workspace s
  /\ console (after (createDom rnd s)) = console s.
Proof.
  destruct s as [t w d c].
  lazy beta iota zeta delta
    [createDom createSvgElement set_textContent bindEvent_ bind ret getThis
     setThis setDocument after outcome fst snd this document workspace
     console svgGroup_].
  done.
Qed.

(** C1. The "Undo" and "Redo" text elements that [createDom] builds have
    one mousedown listener each, [undoMouseDown_] and [redoMouseDown_].
    On every widget that holds its workspace, the first completes after
    exactly one workspace call, [undo(false)], and the second after
    exactly one workspace call, [undo(true)]; neither touches the widget's
    fields or the nodes. *)
Theorem mousedown_handlers_call_undo
    (rnd : string) (s s' : State) (ws : WorkspaceRef) :
  workspace_ (this s') = Some ws ->
  let page := document (after (createDom rnd s)) in
  let undoText := S (length (document s)) in
  let redoText := S (S (length (document s))) in
  textContent <$> page !! undoText = Some "Undo"%string
  /\ listeners_for "mousedown" <$> page !! undoText
     = Some [Method.undoMouseDown_]
  /\ textContent <$> page !! redoText = Some "Redo"%string
  /\ listeners_for "mousedown" <$> page !! redoText
     = Some [Method.redoMouseDown_]
  /\ outcome (call Method.undoMouseDown_ s') = Normal tt
  /\ callLog (workspace (after (call Method.undoMouseDown_ s')))
     = callLog (workspace s') ++ [CallUndo false]
  /\ outcome (call Method.redoMouseDown_ s') = Normal tt
  /\ callLog (workspace (after (call Method.redoMouseDown_ s')))
     = callLog (workspace s') ++ [CallUndo true]
  /\ this (after (call Method.undoMouseDown_ s')) = this s'
  /\ this (after (call Method.redoMouseDown_ s')) = this s'
  /\ document (after (call Method.undoMouseDown_ s')) = document s'
  /\ document (after (call Method.redoMouseDown_ s')) = document s'.
Proof.
  intros Hws page undoText redoText. subst page undoText redoText.
  rewrite createDom_document.
  replace (S (S (length (document s))))
    with (length (document s) + 2)%nat by lia.
  replace (S (length (document s)))
    with (length (document s) + 1)%nat by lia.
  rewrite !lookup_app_r by lia.
  replace (length (document s) + 1 - length (document s))%nat
    with 1%nat by lia.
  replace (length (document s) + 2 - length (document s))%nat
    with 2%nat by lia.
  repeat split; try reflexivity;
    open_state s'; js_unfold; simpl; reflexivity.
Qed.

(** Sequencing after a call that completed. *)
Lemma bind_normal {A B} (c : Js A) (k : A -> Js B) (s : State) (a : A) :
  outcome (c s) = Normal a -> bind c k s = k a (after (c s)).
Proof.
  unfold bind, outcome, after.
  destruct (c s) as [s1 r]. simpl. by intros ->.
Qed.

(** C9, as the code has it.  A call of [createDom], [init], [dispose] or
    of a mouseup, mouseover or mouseout handler always completes.
    [position] raises a TypeError exactly when the widget passes the
    initialized test and either its workspace reference is null (as
    after [dispose]) or the metrics are available and there is no root
    group (as before [createDom]); a mousedown handler raises a TypeError
    exactly when the workspace reference is null.  Every other call
    completes; [throws] is that condition. *)
Theorem calls_throw_exactly_when (op : Op) (s : State) :
  outcome (step op s) = if throws op s then Throw TypeError else Normal tt.
Proof.
  destruct op as [rnd|v| | |m]; cbn [step throws].
  - destruct (createDom_frame rnd s) as [H _].
    by rewrite (bind_normal _ _ _ _ H).
  - reflexivity.
  - unfold initialized. open_state s. js_unfold. simpl.
    destruct verticalSpacing_0 as [v|]; [|done].
    destruct (v =? 0); [done|]. simpl.
    destruct w as [ws|]; [|done]. simpl.
    destruct metricsNow0 as [m|]; [|done]. simpl.
    destruct (_ || _), (_ =? TOOLBOX_AT_BOTTOM); simpl; destruct g; done.
  - js_unfold. by destruct (svgGroup_ (this s)).
  - destruct m; simpl; try reflexivity;
      open_state s; js_unfold; simpl; by destruct w.
Qed.

(** Only [init] assigns the vertical spacing. *)
Lemma step_keeps_spacing (op : Op) (s : State) :
  is_init op = false ->
  verticalSpacing_ (this (after (step op s))) = verticalSpacing_ (this s).
Proof.
  destruct op as [rnd|v| | |m]; cbn [step is_init]; intros Hop; try done.
  - open_state s. js_unfold. simpl.
    destruct verticalSpacing_0 as [v|]; [|done].
    destruct (v =? 0); [done|]. simpl.
    destruct w as [ws|]; [|done]. simpl.
    destruct metricsNow0 as [m|]; [|done]. simpl.
    destruct (_ || _), (_ =? TOOLBOX_AT_BOTTOM); simpl; destruct g; done.
  - js_unfold. by destruct (svgGroup_ (this s)).
  - destruct m; simpl; try reflexivity;
      open_state s; js_unfold; simpl; by destruct w.
Qed.

Lemma run_keeps_spacing (ops : list Op) (s : State) :
  forallb (fun op => negb (is_init op)) ops = true ->
  verticalSpacing_ (this (run ops s)) = verticalSpacing_ (this s).
Proof.
  revert s. induction ops as [|op ops IH]; intros s; simpl; [done|].
  intros [Hop Hops]%andb_true_iff.
  unfold run in *. simpl. rewrite IH by done.
  apply step_keeps_spacing. by apply negb_true_iff.
Qed.

(** C10. [init (-20)] records the spacing [20 + (-20) = 0] and returns
    [44]; the widget then fails [position]'s initialized test, and after
    any further calls other than [init] every [position] is a no-op: it
    completes normally and leaves the whole state, so the coordinates and
    the transform of the root group, as it was. *)
Theorem zero_spacing_counts_as_uninitialized (s : State) (ops : list Op) :
  forallb (fun op => negb (is_init op)) ops = true ->
  let s1 := after (init (-20) s) in
  let s2 := run ops s1 in
  outcome (init (-20) s) = Normal 44
  /\ verticalSpacing_ (this s1) = Some 0
  /\ initialized (this s1) = false
  /\ position s2 = (s2, Normal tt)
  /\ left_ (this (after (position s2))) = left_ (this s2)
  /\ top_ (this (after (position s2))) = top_ (this s2)
  /\ transform_of (after (position s2)) = transform_of s2.
Proof.
  intros Hops s1 s2.
  assert (verticalSpacing_ (this s2) = Some 0) as Hv.
  { subst s2. by rewrite run_keeps_spacing. }
  assert (position s2 = (s2, Normal tt)) as Hp.
  { apply position_not_initialized. unfold initialized. by rewrite Hv. }
  rewrite Hp. done.
Qed.

(** ** Further properties of the operations *)

(** *** [createDom] *)

Lemma lookup_app_plus {A} (d l : list A) (k : nat) :
  (d ++ l) !! (length d + k)%nat = l !! k.
Proof.
  rewrite lookup_app_r by lia. f_equal. lia.
Qed.

(** X1. [createDom] appends exactly three nodes to the page and leaves
    the nodes that were there as they were: a root [g] element of class
    [blocklyUndoredo] that hangs under no parent, and two [text]
    children of that root, "Undo" with id [blocklyUndoText<rnd>] and
    "Redo" with id [blocklyRedoText<rnd>] and [y = 30], both filled
    [#aaa].  It returns the root and stores it in [svgGroup_]; no other
    field changes, no workspace method is called and nothing is written
    to the console. *)
Theorem createDom_builds_three_nodes (rnd : string) (s : State) :
  let g := length (document s) in
  let s' := after (createDom rnd s) in
  let attribute (e : nat) (name : string) :=
    n ← document s' !! e; attributes n !! name in
  outcome (createDom rnd s) = Normal (Some g)
  /\ this s' = assign_svgGroup_ (Some g) (this s)
  /\ workspace s' = workspace s
  /\ console s' = console s
  /\ length (document s') = (g + 3)%nat
  /\ take g (document s') = document s
  /\ tagName <$> document s' !! g = Some "g"%string
  /\ parentNode <$> document s' !! g = Some None
  /\ attribute g "class"%string = Some "blocklyUndoredo"%string
  /\ tagName <$> document s' !! S g = Some "text"%string
  /\ textContent <$> document s' !! S g = Some "Undo"%string
  /\ parentNode <$> document s' !! S g = Some (Some g)
  /\ attribute (S g) "id"%string = Some ("blocklyUndoText" +:+ rnd)
  /\ attribute (S g) "style"%string = Some "fill: #aaa;"%string
  /\ attribute (S g) "y"%string = None
  /\ tagName <$> document s' !! S (S g) = Some "text"%string
  /\ textContent <$> document s' !! S (S g) = Some "Redo"%string
  /\ parentNode <$> document s' !! S (S g) = Some (Some g)
  /\ attribute (S (S g)) "id"%string = Some ("blocklyRedoText" +:+ rnd)
  /\ attribute (S (S g)) "style"%string = Some "fill: #aaa;"%string
  /\ attribute (S (S g)) "y"%string = Some "30"%string.
Proof.
  intros g s' attribute. subst g s' attribute. cbv beta.
  destruct (createDom_frame rnd s) as (Ho & Ht & Hw & Hc).
  rewrite createDom_document.
  replace (S (S (length (document s))))
    with (length (document s) + 2)%nat by lia.
  replace (S (length (document s)))
    with (length (document s) + 1)%nat by lia.
  rewrite !lookup_app_plus.
  rewrite (list_lookup_middle (document s) _ _ (length (document s)) eq_refl).
  rewrite length_app, take_app_length.
  repeat split; try done.
Qed.

(** X2. The binding table of [createDom]: the root group has no
    listener; the "Undo" text has, in this order, [undoMouseDown_] on
    mousedown, [undoMouseUp_] on mouseup, [undoMouseOver_] on mouseover
    and [undoMouseOut_] on mouseout, and the "Redo" text the four redo
    methods likewise.  Each method bound to a mouseup, mouseover or
    mouseout event, invoked in whatever state, completes and changes
    nothing. *)
Theorem createDom_binding_table (rnd : string) (s s1 : State) :
  let g := length (document s) in
  let s' := after (createDom rnd s) in
  let release_hover (e : nat) :=
    from_option
      (fun n => listeners_for "mouseup" n ++ listeners_for "mouseover" n
                ++ listeners_for "mouseout" n)
      [] (document s' !! e) in
  listeners <$> document s' !! g = Some []
  /\ listeners <$> document s' !! S g
     = Some [("mousedown"%string, Method.undoMouseDown_);
             ("mouseup"%string, Method.undoMouseUp_);
             ("mouseover"%string, Method.undoMouseOver_);
             ("mouseout"%string, Method.undoMouseOut_)]
  /\ listeners <$> document s' !! S (S g)
     = Some [("mousedown"%string, Method.redoMouseDown_);
             ("mouseup"%string, Method.redoMouseUp_);
             ("mouseover"%string, Method.redoMouseOver_);
             ("mouseout"%string, Method.redoMouseOut_)]
  /\ release_hover (S g)
     = [Method.undoMouseUp_; Method.undoMouseOver_; Method.undoMouseOut_]
  /\ release_hover (S (S g))
     = [Method.redoMouseUp_; Method.redoMouseOver_; Method.redoMouseOut_]
  /\ Forall (fun m => call m s1 = (s1, Normal tt))
       (release_hover (S g) ++ release_hover (S (S g))).
Proof.
  intros g s' release_hover. subst g s' release_hover. cbv beta.
  rewrite createDom_document.
  replace (S (S (length (document s))))
    with (length (document s) + 2)%nat by lia.
  replace (S (length (document s)))
    with (length (document s) + 1)%nat by lia.
  rewrite !lookup_app_plus.
  rewrite (list_lookup_middle (document s) _ _ (length (document s)) eq_refl).
  repeat split; try reflexivity.
  repeat constructor.
Qed.

(** X3. A mousedown on a widget whose workspace reference is null (a
    disposed widget): the handler writes its message to the console and
    then raises a TypeError; no workspace method is called and neither
    the widget's fields nor the nodes change. *)
Theorem mousedown_without_workspace (s : State) :
  workspace_ (this s) = None ->
  call Method.undoMouseDown_ s
  = (after (console_log "undo mouse down event" s), Throw TypeError)
  /\ call Method.redoMouseDown_ s
     = (after (console_log "redo mouse down event" s), Throw TypeError)
  /\ console (after (call Method.undoMouseDown_ s))
     = console s ++ ["undo mouse down event"%string]
  /\ console (after (call Method.redoMouseDown_ s))
     = console s ++ ["redo mouse down event"%string]
  /\ workspace (after (call Method.undoMouseDown_ s)) = workspace s
  /\ workspace (after (call Method.redoMouseDown_ s)) = workspace s.
Proof.
  intros Hws. open_state s. js_unfold. simpl. done.
Qed.

(** *** [dispose] *)

(** What [dispose] leaves behind, field by field. *)
Lemma dispose_effect (s : State) :
  outcome (dispose s) = Normal tt
  /\ this (after (dispose s))
     = assign_workspace_ None (assign_svgGroup_ None (this s))
  /\ workspace (after (dispose s)) = workspace s
  /\ console (after (dispose s)) = console s
  /\ document (after (dispose s))
     = match svgGroup_ (this s) with
       | Some g =>
           alter (fun n =>
             {| tagName := tagName n; attributes := attributes n;
                textContent := textContent n; parentNode := None;
                listeners := listeners n |}) g (document s)
       | None => document s
       end.
Proof.
  open_state s. js_unfold. destruct g; simpl; done.
Qed.

(** X4. [dispose] touches nothing but the two references and the parent
    link of the root group: the stored coordinates and the vertical
    spacing stay, no workspace method is called, nothing is written to
    the console, no node is added or removed, every node keeps its tag,
    attributes (so the root group keeps its transform), text and
    listeners (nothing is unbound), and every node other than the root
    group keeps its parent. *)
Theorem dispose_frame (s : State) (i : nat) :
  let s' := after (dispose s) in
  left_ (this s') = left_ (this s)
  /\ top_ (this s') = top_ (this s)
  /\ verticalSpacing_ (this s') = verticalSpacing_ (this s)
  /\ workspace s' = workspace s
  /\ console s' = console s
  /\ length (document s') = length (document s)
  /\ tagName <$> document s' !! i = tagName <$> document s !! i
  /\ attributes <$> document s' !! i = attributes <$> document s !! i
  /\ textContent <$> document s' !! i = textContent <$> document s !! i
  /\ listeners <$> document s' !! i = listeners <$> document s !! i
  /\ parentNode <$> document s' !! i
     = (if decide (svgGroup_ (this s) = Some i)
        then fun _ => None else parentNode) <$> document s !! i.
Proof.
  intros s'. subst s'.
  destruct (dispose_effect s) as (_ & -> & -> & -> & ->).
  destruct (svgGroup_ (this s)) as [g|] eqn:Hg.
  - rewrite length_alter.
    destruct (decide (g = i)) as [->|Hne].
    + rewrite list_lookup_alter_eq.
      rewrite decide_True by done.
      destruct (document s !! i); done.
    + rewrite list_lookup_alter_ne by done.
      rewrite decide_False by congruence. done.
  - rewrite decide_False by done. done.
Qed.

Lemma mousedown_null_workspace (s : State) :
  workspace_ (this s) = None ->
  outcome (call Method.undoMouseDown_ s) = Throw TypeError
  /\ outcome (call Method.redoMouseDown_ s) = Throw TypeError
  /\ workspace (after (call Method.undoMouseDown_ s)) = workspace s
  /\ workspace (after (call Method.redoMouseDown_ s)) = workspace s.
Proof.
  intros Hws. open_state s. js_unfold. simpl. done.
Qed.

(** X5. Listeners outlive the widget: after [createDom] and then
    [dispose] the two text elements still carry their mousedown
    listeners, and invoking either one raises a TypeError without
    reaching the workspace. *)
Theorem listeners_survive_dispose (rnd : string) (s : State) :
  let g := length (document s) in
  let s' := after (dispose (after (createDom rnd s))) in
  listeners_for "mousedown" <$> document s' !! S g
  = Some [Method.undoMouseDown_]
  /\ listeners_for "mousedown" <$> document s' !! S (S g)
     = Some [Method.redoMouseDown_]
  /\ outcome (call Method.undoMouseDown_ s') = Throw TypeError
  /\ outcome (call Method.redoMouseDown_ s') = Throw TypeError
  /\ workspace (after (call Method.undoMouseDown_ s')) = workspace s
  /\ workspace (after (call Method.redoMouseDown_ s')) = workspace s.
Proof.
  intros g s'. subst g s'.
  destruct (dispose_effect (after (createDom rnd s)))
    as (_ & Ht & Hw & _ & Hd).
  destruct (createDom_frame rnd s) as (_ & Ht' & Hw' & _).
  rewrite Ht' in Ht, Hd. cbn [assign_svgGroup_ svgGroup_] in Hd.
  rewrite createDom_document in Hd.
  assert (forall e : nat, e <> length (document s) ->
    document (after (dispose (after (createDom rnd s)))) !! e
    = document (after (createDom rnd s)) !! e) as Hother.
  { intros e He. rewrite Hd, createDom_document.
    by rewrite list_lookup_alter_ne. }
  rewrite !Hother by lia.
  rewrite createDom_document.
  replace (S (S (length (document s))))
    with (length (document s) + 2)%nat by lia.
  replace (S (length (document s)))
    with (length (document s) + 1)%nat by lia.
  rewrite !lookup_app_plus.
  split; [reflexivity|]. split; [reflexivity|].
  rewrite <- Hw', <- Hw.
  apply mousedown_null_workspace. by rewrite Ht.
Qed.

(** X6. [createDom] followed by [dispose] leaves every node that was on
    the page before, a root group of an earlier [createDom] included,
    exactly as it was: [dispose] unlinks only the group built last. *)
Theorem createDom_dispose_keeps_earlier_nodes
    (rnd : string) (s : State) (i : nat) :
  (i < length (document s))%nat ->
  document (after (dispose (after (createDom rnd s)))) !! i
  = document s !! i.
Proof.
  intros Hi.
  destruct (dispose_effect (after (createDom rnd s))) as (_ & _ & _ & _ & ->).
  destruct (createDom_frame rnd s) as (_ & -> & _ & _).
  cbn [assign_svgGroup_ svgGroup_].
  rewrite list_lookup_alter_ne by lia.
  rewrite createDom_document.
  by rewrite lookup_app_l.
Qed.

(** *** [position] *)

(** The four ways through [position]. *)
Lemma position_null_workspace (s : State) :
  initialized (this s) = true ->
  workspace_ (this s) = None ->
  position s = (s, Throw TypeError).
Proof.
  intros Hi Hws.
  destruct (initialized_spacing _ Hi) as (v & Hv & Hne).
  open_state s. js_unfold. simpl.
  by destruct (Z.eqb_spec v 0).
Qed.

Lemma position_no_metrics (s : State) (ws : WorkspaceRef) :
  initialized (this s) = true ->
  workspace_ (this s) = Some ws ->
  metricsNow (workspace s) = None ->
  position s = (after (logCall CallGetMetrics s), Normal tt).
Proof.
  intros Hi Hws Hm.
  destruct (initialized_spacing _ Hi) as (v & Hv & Hne).
  open_state s. js_unfold. simpl.
  by destruct (Z.eqb_spec v 0).
Qed.

Lemma position_effect (s : State) (ws : WorkspaceRef) (m : Metrics) :
  initialized (this s) = true ->
  workspace_ (this s) = Some ws ->
  metricsNow (workspace s) = Some m ->
  let s' := after (position s) in
  workspace s' = workspace (after (logCall CallGetMetrics s))
  /\ console s' = console s
  /\ document s'
     = match svgGroup_ (this s) with
       | Some g =>
           alter (fun n =>
             {| tagName := tagName n;
                attributes :=
                  <["transform"%string :=
                      translate (left_ (this s')) (top_ (this s'))]>
                    (attributes n);
                textContent := textContent n; parentNode := parentNode n;
                listeners := listeners n |}) g (document s)
       | None => document s
       end.
Proof.
  intros Hi Hws Hm.
  destruct (initialized_spacing _ Hi) as (v & Hv & Hne).
  open_state s. js_unfold. simpl.
  destruct (Z.eqb_spec v 0) as [|_]; [done|]. simpl.
  destruct (_ || _), (_ =? TOOLBOX_AT_BOTTOM); simpl; destruct g; simpl; done.
Qed.

Ltac position_cases s :=
  let Hi := fresh "Hi" in
  let Hws := fresh "Hws" in
  let Hm := fresh "Hm" in
  destruct (initialized (this s)) eqn:Hi;
  [ destruct (workspace_ (this s)) as [?ws|] eqn:Hws;
    [ destruct (metricsNow (workspace s)) as [?m|] eqn:Hm | ] | ].

(** X7. After a [position] that gets as far as the root group (the
    widget is initialized, holds its workspace, metrics are available
    and the root group is a node of the page), the group's [transform]
    attribute is ['translate(' + left_ + ',' + top_ + ')'] for the
    coordinates just stored.  The spacing, the metrics, the scrollbar
    thickness and every partial result of the two coordinates are safe
    integers, so that the coordinates are computed exactly and are
    written as their decimal digits. *)
Theorem position_writes_transform
    (s : State) (ws : WorkspaceRef) (m : Metrics) (g : nat) (spacing : Z) :
  initialized (this s) = true ->
  verticalSpacing_ (this s) = Some spacing ->
  workspace_ (this s) = Some ws ->
  metricsNow (workspace s) = Some m ->
  svgGroup_ (this s) = Some g ->
  (g < length (document s))%nat ->
  exact_right_edge m = true ->
  exact_left_edge = true ->
  exact_bottom_edge m spacing = true ->
  let s' := after (position s) in
  outcome (position s) = Normal tt
  /\ transform_of s'
     = Some ("translate(" +:+ pretty (left_ (this s')) +:+ ","
             +:+ pretty (top_ (this s')) +:+ ")").
Proof.
  intros Hi _ Hws Hm Hg Hlt _ _ _ s'.
  destruct (initialized_spacing _ Hi) as (v & Hv & Hne).
  destruct (position_placed s ws m v Hv Hne Hws Hm) as [Ht Ho].
  destruct (position_effect s ws m Hi Hws Hm) as (_ & _ & Hd).
  rewrite Hg in Ho, Hd. split; [done|].
  unfold transform_of. fold s' in Ht, Hd |- *.
  assert (svgGroup_ (this s') = Some g) as -> by (by rewrite Ht).
  rewrite Hd. simpl. rewrite list_lookup_alter_eq.
  destruct (lookup_lt_is_Some_2 _ _ Hlt) as [n ->]. simpl.
  by rewrite lookup_insert_eq.
Qed.

(** X8. [position] is idempotent on the widget and the page: called a
    second time right after the first, it ends the same way and leaves
    the widget's fields and every node as the first call left them. *)
Theorem position_idempotent (s : State) :
  let s1 := after (position s) in
  let s2 := after (position s1) in
  outcome (position s1) = outcome (position s)
  /\ this s2 = this s1
  /\ document s2 = document s1
  /\ console s2 = console s1.
Proof.
  intros s1 s2. subst s2 s1. position_cases s.
  - (* placed *)
    destruct (initialized_spacing _ Hi) as (v & Hv & Hne).
    destruct (position_placed s ws m v Hv Hne Hws Hm) as [Ht Ho].
    destruct (position_effect s ws m Hi Hws Hm) as (Hw & Hc & Hd).
    set (s1 := after (position s)) in *.
    assert (verticalSpacing_ (this s1) = Some v) as Hv1
      by (rewrite Ht; exact Hv).
    assert (initialized (this s1) = true) as Hi1
      by (unfold initialized; rewrite Hv1; by destruct (Z.eqb_spec v 0)).
    assert (workspace_ (this s1) = Some ws) as Hws1
      by (rewrite Ht; exact Hws).
    assert (metricsNow (workspace s1) = Some m) as Hm1
      by (rewrite Hw; exact Hm).
    destruct (position_placed s1 ws m v Hv1 Hne Hws1 Hm1) as [Ht1 Ho1].
    destruct (position_effect s1 ws m Hi1 Hws1 Hm1) as (_ & Hc1 & Hd1).
    assert (this (after (position s1)) = this s1) as Hsame.
    { rewrite Ht1, Hw. simpl. by rewrite Ht. }
    rewrite Ho1, Ho, Hc1, Hd1, Hsame.
    assert (svgGroup_ (this s1) = svgGroup_ (this s)) as -> by (by rewrite Ht).
    repeat split; try done.
    destruct (svgGroup_ (this s)) as [g|]; [|done].
    rewrite Hd at 1. rewrite list_alter_alter_eq. rewrite Hd.
    apply list_alter_ext; [|done].
    intros n _. simpl. by rewrite insert_insert_eq.
  - (* no metrics *)
    rewrite (position_no_metrics s ws Hi Hws Hm).
    pose proof (position_no_metrics (after (logCall CallGetMetrics s)) ws
                  Hi Hws Hm) as H1.
    set (s1 := after (logCall CallGetMetrics s)) in *.
    cbn [after outcome fst snd]. by rewrite H1.
  - (* no workspace *)
    rewrite (position_null_workspace s Hi Hws).
    cbn [after outcome fst snd].
    by rewrite (position_null_workspace s Hi Hws).
  - (* not initialized *)
    rewrite (position_not_initialized s Hi).
    cbn [after outcome fst snd].
    by rewrite (position_not_initialized s Hi).
Qed.

(** X9. What [position] never touches: the workspace reference, the
    root group reference and the vertical spacing stay; nothing is
    written to the console; no node is added or removed; every node
    keeps its tag, text, parent and listeners and every attribute other
    than [transform]; and a node other than the root group is left
    exactly as it was. *)
Theorem position_frame (s : State) (i : nat) (name : string) :
  let s' := after (position s) in
  workspace_ (this s') = workspace_ (this s)
  /\ svgGroup_ (this s') = svgGroup_ (this s)
  /\ verticalSpacing_ (this s') = verticalSpacing_ (this s)
  /\ console s' = console s
  /\ length (document s') = length (document s)
  /\ tagName <$> document s' !! i = tagName <$> document s !! i
  /\ textContent <$> document s' !! i = textContent <$> document s !! i
  /\ parentNode <$> document s' !! i = parentNode <$> document s !! i
  /\ listeners <$> document s' !! i = listeners <$> document s !! i
  /\ (if decide (name = "transform"%string) then True
      else (n ← document s' !! i; attributes n !! name)
           = (n ← document s !! i; attributes n !! name))
  /\ (if decide (svgGroup_ (this s) = Some i) then True
      else document s' !! i = document s !! i).
Proof.
  intros s'. subst s'.
  assert (forall P : Prop, P -> if decide (name = "transform"%string)
                                then True else P) as Hname
    by (intros P HP; by destruct (decide (name = "transform"%string))).
  assert (forall P : Prop, P -> if decide (svgGroup_ (this s) = Some i)
                                then True else P) as Hroot
    by (intros P HP; by destruct (decide (svgGroup_ (this s) = Some i))).
  position_cases s.
  - destruct (initialized_spacing _ Hi) as (v & Hv & Hne).
    destruct (position_placed s ws m v Hv Hne Hws Hm) as [Ht _].
    destruct (position_effect s ws m Hi Hws Hm) as (_ & Hc & Hd).
    set (tr := translate _ _) in Hd. clearbody tr.
    rewrite Hc, Hd, Ht.
    cbn [assign_top_ assign_left_ workspace_ svgGroup_ verticalSpacing_].
    destruct (svgGroup_ (this s)) as [g|] eqn:Hg.
    2: { repeat split; try done; first [apply Hname | apply Hroot]; done. }
    rewrite length_alter.
    destruct (decide (g = i)) as [->|Hgi].
    + rewrite list_lookup_alter_eq.
      destruct (document s !! i) as [n|]; cbn;
        (repeat split; try done; [|by destruct (decide (Some i = Some i))]).
      * destruct (decide (name = "transform"%string)); [done|].
        by rewrite lookup_insert_ne.
      * by apply Hname.
    + rewrite list_lookup_alter_ne by done.
      repeat split; try done; first [apply Hname | apply Hroot]; done.
  - rewrite (position_no_metrics s ws Hi Hws Hm).
    cbn. repeat split; try done; first [apply Hname | apply Hroot]; done.
  - rewrite (position_null_workspace s Hi Hws).
    cbn. repeat split; try done; first [apply Hname | apply Hroot]; done.
  - rewrite (position_not_initialized s Hi).
    cbn. repeat split; try done; first [apply Hname | apply Hroot]; done.
Qed.

(** X10. [position] makes at most one call into the workspace, and it is
    a metrics query, never [undo]: exactly one query when the widget is
    initialized and holds its workspace, no call at all otherwise. *)
Theorem position_queries_metrics_once (s : State) :
  callLog (workspace (after (position s)))
  = callLog (workspace s)
    ++ (if initialized (this s) && negb (is_null (workspace_ (this s)))
        then [CallGetMetrics] else []).
Proof.
  position_cases s; simpl.
  - destruct (position_effect s ws m Hi Hws Hm) as (-> & _). done.
  - by rewrite (position_no_metrics s ws Hi Hws Hm).
  - rewrite (position_null_workspace s Hi Hws). simpl.
    by rewrite app_nil_r.
  - rewrite (position_not_initialized s Hi). simpl.
    by rewrite app_nil_r.
Qed.

(** X11. How [position] fails on an initialized widget.  With a null
    workspace reference it raises a TypeError at once: no query is made
    and nothing changes.  With a workspace, metrics at hand and a null
    root group it raises a TypeError only at the transform update: by
    then the metrics have been queried and the new left and top
    coordinates are stored (as the source computes them exactly when
    their operands and partial results are safe integers), while the
    nodes are untouched.  In every other case it completes. *)
Theorem position_failure_modes (s : State) (spacing : Z) :
  initialized (this s) = true ->
  verticalSpacing_ (this s) = Some spacing ->
  let s' := after (position s) in
  match workspace_ (this s), metricsNow (workspace s), svgGroup_ (this s) with
  | None, _, _ => position s = (s, Throw TypeError)
  | Some _, Some m, None =>
      outcome (position s) = Throw TypeError
      /\ callLog (workspace s') = callLog (workspace s) ++ [CallGetMetrics]
      /\ document s' = document s
      /\ (exact_right_edge m = true ->
          exact_left_edge = true ->
          left_ (this s')
          = (if (toolboxPosition m =? TOOLBOX_AT_LEFT)
                || (horizontalLayout (workspace s)
                    && negb (RTL (workspace s)))
             then viewWidth m + absoluteLeft m
                  - WIDTH_ - MARGIN_SIDE_ - scrollbarThickness
             else MARGIN_SIDE_ + scrollbarThickness))
      /\ (exact_bottom_edge m spacing = true ->
          top_ (this s')
          = (if toolboxPosition m =? TOOLBOX_AT_BOTTOM then spacing
             else viewHeight m + absoluteTop m - BODY_HEIGHT_ - spacing))
  | Some _, _, _ => outcome (position s) = Normal tt
  end.
Proof.
  intros Hi Hv s'. subst s'.
  destruct (workspace_ (this s)) as [ws|] eqn:Hws;
    [|by apply position_null_workspace].
  destruct (metricsNow (workspace s)) as [m|] eqn:Hm.
  - destruct (initialized_spacing _ Hi) as (v & Hv' & Hne).
    assert (v = spacing) as -> by congruence.
    destruct (position_placed s ws m spacing Hv Hne Hws Hm) as [Ht Ho].
    destruct (position_effect s ws m Hi Hws Hm) as (Hw & _ & Hd).
    destruct (svgGroup_ (this s)); [done|].
    rewrite Ho, Ht, Hw, Hd. done.
  - rewrite (position_no_metrics s ws Hi Hws Hm).
    by destruct (svgGroup_ (this s)).
Qed.

(** *** How the operations compose *)

(** X12. The extent [init] returns is the distance from the workspace
    edge the widget sits at to the far edge of the widget, as [position]
    then places it: with the toolbox at the bottom the widget sits at the
    top and the extent is its top offset plus the body height; otherwise
    it sits at the bottom and the extent is the distance from the bottom
    of the view, [viewHeight + absoluteTop], up to its top offset.  This
    is for an integer [v] whose spacing [MARGIN_BOTTOM_ + v] is not
    zero, and for operands and partial results that are safe integers,
    so that [init] and [position] compute exactly. *)
Theorem init_extent_reaches_far_edge
    (s : State) (ws : WorkspaceRef) (m : Metrics) (v : Z) :
  MARGIN_BOTTOM_ + v <> 0 ->
  exact_init v = true ->
  exact_bottom_edge m (MARGIN_BOTTOM_ + v) = true ->
  workspace_ (this s) = Some ws ->
  metricsNow (workspace s) = Some m ->
  let s' := after (position (after (init v s))) in
  outcome (init v s)
  = Normal (if toolboxPosition m =? TOOLBOX_AT_BOTTOM
            then top_ (this s') + BODY_HEIGHT_
            else viewHeight m + absoluteTop m - top_ (this s')).
Proof.
  intros Hne _ _ Hws Hm s'. subst s'.
  destruct (position_placed (after (init v s)) ws m (MARGIN_BOTTOM_ + v))
    as [Ht _]; try done.
  rewrite Ht. unfold init, bind, setThis, ret, outcome, after. simpl.
  f_equal. destruct (_ =? TOOLBOX_AT_BOTTOM); unfold BODY_HEIGHT_; lia.
Qed.

Lemma after_ret {A} (a : A) (s : State) : after (ret a s) = s.
Proof. reflexivity. Qed.

Lemma outcome_ret {A} (a : A) (s : State) : outcome (ret a s) = Normal a.
Proof. reflexivity. Qed.

Lemma step_createDom (rnd : string) (s : State) :
  after (step (OpCreateDom rnd) s) = after (createDom rnd s)
  /\ outcome (step (OpCreateDom rnd) s) = Normal tt.
Proof.
  destruct (createDom_frame rnd s) as [Ho _].
  cbn [step]. rewrite (bind_normal _ _ _ _ Ho).
  split; [apply after_ret | apply outcome_ret].
Qed.

(** X13. Which call writes what.  Only [position] changes the stored
    coordinates; only [dispose] changes the workspace reference; only
    [createDom] and [dispose] change the root group reference; only
    [init] changes the vertical spacing; [init] and the handlers leave
    every node alone; only the two mousedown handlers write to the
    console. *)
Theorem writers_of_each_field (op : Op) (s : State) :
  let s' := after (step op s) in
  (if is_position op then True
   else left_ (this s') = left_ (this s) /\ top_ (this s') = top_ (this s))
  /\ (if is_dispose op then True
      else workspace_ (this s') = workspace_ (this s))
  /\ match op with
     | OpCreateDom _ | OpDispose => True
     | _ => svgGroup_ (this s') = svgGroup_ (this s)
     end
  /\ (if is_init op then True
      else verticalSpacing_ (this s') = verticalSpacing_ (this s))
  /\ match op with
     | OpInit _ | OpEvent _ => document s' = document s
     | _ => True
     end
  /\ match op with
     | OpEvent Method.undoMouseDown_ | OpEvent Method.redoMouseDown_ => True
     | _ => console s' = console s
     end.
Proof.
  intros s'. subst s'.
  destruct op as [rnd|v| | |m]; cbn [is_position is_dispose is_init].
  - destruct (createDom_frame rnd s) as (_ & Ht & _ & Hc).
    destruct (step_createDom rnd s) as [-> _].
    rewrite Ht, Hc. clear Ht Hc. repeat split.
  - cbn [step]. done.
  - cbn [step]. open_state s. js_unfold. simpl.
    destruct verticalSpacing_0 as [v|]; [|done].
    destruct (v =? 0); [done|]. simpl.
    destruct w as [ws|]; [|done]. simpl.
    destruct metricsNow0 as [m|]; [|done]. simpl.
    destruct (_ || _), (_ =? TOOLBOX_AT_BOTTOM); simpl; destruct g; done.
  - cbn [step]. destruct (dispose_effect s) as (_ & -> & _ & -> & _). done.
  - cbn [step]. destruct m; simpl; try done;
      open_state s; js_unfold; simpl; by destruct w.
Qed.

(** A widget with both of its references set completes every call. *)
Lemma step_completes (op : Op) (s : State) :
  is_null (workspace_ (this s)) = false ->
  is_null (svgGroup_ (this s)) = false ->
  outcome (step op s) = Normal tt.
Proof.
  intros Hws Hg.
  destruct op as [rnd|v| | |m].
  - by destruct (step_createDom rnd s) as [_ ->].
  - reflexivity.
  - cbn [step]. open_state s. js_unfold. simpl.
    destruct verticalSpacing_0 as [v|]; [|done].
    destruct (v =? 0); [done|]. simpl.
    destruct w as [ws|]; [|done]. simpl.
    destruct metricsNow0 as [m|]; [|done]. simpl.
    destruct (_ || _), (_ =? TOOLBOX_AT_BOTTOM); simpl; destruct g; done.
  - cbn [step]. by destruct (dispose_effect s) as [-> _].
  - destruct m; simpl; try reflexivity;
      open_state s; js_unfold; simpl; by destruct w.
Qed.

(** Short of [dispose], no call nulls a reference. *)
Lemma step_keeps_references (op : Op) (s : State) :
  is_dispose op = false ->
  is_null (workspace_ (this s)) = false ->
  is_null (svgGroup_ (this s)) = false ->
  is_null (workspace_ (this (after (step op s)))) = false
  /\ is_null (svgGroup_ (this (after (step op s)))) = false.
Proof.
  intros Hop Hws Hg.
  destruct op as [rnd|v| | |m]; cbn [is_dispose] in Hop.
  - destruct (createDom_frame rnd s) as (_ & Ht & _).
    destruct (step_createDom rnd s) as [-> _].
    rewrite Ht. clear Ht. split; [exact Hws | reflexivity].
  - split; [exact Hws | exact Hg].
  - cbn [step]. open_state s. js_unfold. simpl.
    destruct verticalSpacing_0 as [v|]; [|done].
    destruct (v =? 0); [done|]. simpl.
    destruct w as [ws|]; [|done]. simpl.
    destruct metricsNow0 as [m|]; [|done]. simpl.
    destruct (_ || _), (_ =? TOOLBOX_AT_BOTTOM); simpl; destruct g; done.
  - discriminate Hop.
  - cbn [step]. destruct m; simpl; try done;
      open_state s; js_unfold; simpl; by destruct w.
Qed.

Lemma outcomes_live (ops : list Op) (s : State) :
  forallb (fun op => negb (is_dispose op)) ops = true ->
  is_null (workspace_ (this s)) = false ->
  is_null (svgGroup_ (this s)) = false ->
  Forall (fun r => r = Normal tt) (outcomes (ops ++ [OpDispose]) s).
Proof.
  revert s. induction ops as [|op ops IH]; intros s Hops Hws Hg.
  - repeat constructor. by destruct (dispose_effect s) as [H _].
  - apply andb_true_iff in Hops as [Hop Hops].
    apply negb_true_iff in Hop.
    destruct (step_keeps_references op s Hop Hws Hg) as [Hws' Hg'].
    cbn [app outcomes]. constructor.
    + by apply step_completes.
    + by apply IH.
Qed.

(** X14. The lifecycle the widget is written for never throws: on a
    widget that holds its workspace, [createDom] first, then any calls
    of [init], [position], [createDom] and of the eight handlers in any
    order and number, then [dispose] last: every single call completes
    normally. *)
Theorem lifecycle_never_throws (rnd : string) (ops : list Op) (s : State) :
  is_null (workspace_ (this s)) = false ->
  forallb (fun op => negb (is_dispose op)) ops = true ->
  Forall (fun r => r = Normal tt)
    (outcomes (OpCreateDom rnd :: ops ++ [OpDispose]) s).
Proof.
  intros Hws Hops.
  destruct (createDom_frame rnd s) as (_ & Ht & _).
  destruct (step_createDom rnd s) as [Ha Ho].
  cbn [outcomes]. rewrite Ha, Ho.
  constructor; [reflexivity|].
  apply outcomes_live; [exact Hops| |]; rewrite Ht;
    [exact Hws | reflexivity].
Qed.

Lemma run_cons (op : Op) (ops : list Op) (s : State) :
  run (op :: ops) s = run ops (after (step op s)).
Proof. reflexivity. Qed.

Lemma press_effect (redo : bool) (s : State) (ws : WorkspaceRef) :
  workspace_ (this s) = Some ws ->
  this (after (step (press redo) s)) = this s
  /\ callLog (workspace (after (step (press redo) s)))
     = callLog (workspace s) ++ [CallUndo redo]
  /\ console (after (step (press redo) s))
     = console s ++ [if redo then "redo mouse down event"%string
                     else "undo mouse down event"%string].
Proof.
  intros Hws. destruct redo; open_state s; js_unfold; simpl; done.
Qed.

(** X15. Presses reach the workspace one for one and in order: on a
    widget that holds its workspace, after any sequence of presses on
    "Undo" and "Redo" the workspace has received exactly one [undo] call
    per press, [undo(false)] for "Undo" and [undo(true)] for "Redo", in
    the order of the presses, and the console one message per press. *)
Theorem presses_reach_workspace_in_order
    (presses : list bool) (s : State) (ws : WorkspaceRef) :
  workspace_ (this s) = Some ws ->
  callLog (workspace (run (press <$> presses) s))
  = callLog (workspace s) ++ (CallUndo <$> presses)
  /\ console (run (press <$> presses) s)
     = console s
       ++ ((fun redo : bool => if redo then "redo mouse down event"%string
                               else "undo mouse down event"%string)
           <$> presses).
Proof.
  revert s. induction presses as [|redo presses IH]; intros s Hws.
  - cbn. by rewrite !app_nil_r.
  - destruct (press_effect redo s ws Hws) as (Ht & Hl & Hc).
    rewrite !fmap_cons, run_cons.
    destruct (IH (after (step (press redo) s))) as [IHl IHc];
      [by rewrite Ht|].
    rewrite IHl, IHc, Hl, Hc. by rewrite <- !app_assoc.
Qed.

End Widget.

(** ** Concrete runs

    The toolkit's values: [TOOLBOX_AT_LEFT = 2], [TOOLBOX_AT_BOTTOM = 1],
    scrollbar thickness 15. *)

(** C2 as stated fails, in the arithmetic of the source.  For the number
    -7.88 (in binary64, -8872091265919877 * 2^-50) the extent [init]
    returns, 56.120000000000005, is not [v + 64], which is 56.12.  For
    the integer 9007199254740991 = 2^53 - 1 it stores 9007199254741012,
    one more than [20 + v], and returns 9007199254741056, one more than
    [v + 64]. *)
Lemma init_extent_is_not_v_plus_64 :
  (let v := Binary64.scaled (-8872091265919877) (-50) in
   Binary64.eqb (snd (Binary64.init_arithmetic v))
                (Binary64.add v (Binary64.of_Z 64)) = false)
  /\ (let v := 9007199254740991 in
      Binary64.to_Z (Binary64.of_Z v) = Some v
      /\ Binary64.to_Z (fst (Binary64.init_arithmetic (Binary64.of_Z v)))
         = Some (20 + v + 1)
      /\ Binary64.to_Z (snd (Binary64.init_arithmetic (Binary64.of_Z v)))
         = Some (v + 64 + 1)).
Proof. vm_compute. done. Qed.

(** Inside the safe range the arithmetic of the source and that of the
    integers agree, as for [init 0] and [init (-20)]. *)
Example init_arithmetic_exact :
  Binary64.init_arithmetic (Binary64.of_Z 0)
  = (Binary64.of_Z 20, Binary64.of_Z 64)
  /\ Binary64.init_arithmetic (Binary64.of_Z (-20))
     = (Binary64.of_Z 0, Binary64.of_Z 44)
  /\ Binary64.init_arithmetic (Binary64.of_Z (MAX_SAFE_INTEGER - 64))
     = (Binary64.of_Z (MAX_SAFE_INTEGER - 44), Binary64.of_Z MAX_SAFE_INTEGER).
Proof. vm_compute. done. Qed.

(** [init 0]: 20 is stored and 64 returned. *)
Lemma init_returns_extent_witness :
  exact_init 0 = true
  /\ outcome (init 0 (new_page hidden)) = Normal (0 + 64)
  /\ verticalSpacing_ (this (after (init 0 (new_page hidden)))) = Some (20 + 0).
Proof.
  assert (exact_init 0 = true) as He by (vm_compute; reflexivity).
  refine (conj He _).
  destruct (init_returns_extent 0 (new_page hidden) He) as (Ho & _ & Hv & _).
  exact (conj Ho Hv).
Defined.

(** C9 as stated fails: on an initialized widget [position] after
    [dispose] throws, and so does [position] on a widget that is
    initialized, has metrics available, and never had [createDom]
    called. *)
Lemma position_can_throw :
  outcome (step 2 1 15 OpPosition
             (run 2 1 15 [OpCreateDom "4821"; OpInit 0; OpDispose]
                (new_page (showing metrics_left))))
  = Throw TypeError
  /\ outcome (step 2 1 15 OpPosition
                (run 2 1 15 [OpInit 0] (new_page (showing metrics_left))))
     = Throw TypeError.
Proof. split; vm_compute; reflexivity. Qed.

(** A full pass through the lifecycle on a workspace with its toolbox on
    the left: the widget ends up at (818, 536) and the root group carries
    that translation. *)
Example lifecycle_left :
  let s := after (position 2 1 15 (ready (showing metrics_left))) in
  left_ (this s) = 818
  /\ top_ (this s) = 536
  /\ transform_of s = Some "translate(818,536)"%string
  /\ callLog (workspace s) = [CallGetMetrics].
Proof. vm_compute. done. Qed.

(** The same with the toolbox at the bottom: (35, 20). *)
Example lifecycle_bottom :
  let s := after (position 2 1 15 (ready (showing metrics_bottom))) in
  left_ (this s) = 35
  /\ top_ (this s) = 20
  /\ transform_of s = Some "translate(35,20)"%string.
Proof. vm_compute. done. Qed.

(** [dispose] after the host has put the root group under a node of its
    own: the group is unlinked and both references are null. *)
Example lifecycle_dispose :
  let mounted := mount "svg" (ready (showing metrics_left)) in
  svgGroup_ (this mounted) = Some 0%nat
  /\ attached 0 mounted = true
  /\ attached 0 (after (dispose mounted)) = false
  /\ svgGroup_ (this (after (dispose mounted))) = None
  /\ workspace_ (this (after (dispose mounted))) = None.
Proof. vm_compute. done. Qed.

(** The handlers on the page of a freshly constructed widget. *)
Lemma mousedown_handlers_call_undo_witness :
  workspace_ (this (new_page hidden)) = Some theWorkspace
  /\ callLog (workspace (after (call Method.undoMouseDown_ (new_page hidden))))
     = [CallUndo false]
  /\ callLog (workspace (after (call Method.redoMouseDown_ (new_page hidden))))
     = [CallUndo true].
Proof.
  split; [reflexivity|].
  destruct (mousedown_handlers_call_undo "4821" (new_page hidden)
              (new_page hidden) theWorkspace eq_refl)
    as (_ & _ & _ & _ & _ & Hundo & _ & Hredo & _).
  split; [exact Hundo | exact Hredo].
Defined.

(** Toolbox on the left: 800 + 100 - 47 - 20 - 15 = 818. *)
Lemma position_left_when_toolbox_at_left_witness :
  initialized (this (ready (showing metrics_left))) = true
  /\ workspace_ (this (ready (showing metrics_left))) = Some theWorkspace
  /\ metricsNow (workspace (ready (showing metrics_left))) = Some metrics_left
  /\ exact_right_edge 15 metrics_left = true
  /\ toolboxPosition metrics_left = 2
  /\ left_ (this (after (position 2 1 15 (ready (showing metrics_left)))))
     = 818.
Proof.
  assert (initialized (this (ready (showing metrics_left))) = true) as Hi
    by (vm_compute; reflexivity).
  assert (workspace_ (this (ready (showing metrics_left))) = Some theWorkspace)
    as Hws by (vm_compute; reflexivity).
  assert (metricsNow (workspace (ready (showing metrics_left)))
          = Some metrics_left) as Hm by (vm_compute; reflexivity).
  assert (exact_right_edge 15 metrics_left = true) as He
    by (vm_compute; reflexivity).
  refine (conj Hi (conj Hws (conj Hm (conj He (conj eq_refl _))))).
  exact (position_left_when_toolbox_at_left 2 1 15
           (ready (showing metrics_left)) theWorkspace metrics_left
           Hi Hws Hm He (or_introl eq_refl)).
Defined.

(** Toolbox at the bottom, after [init 0]: the top offset is 20. *)
Lemma position_top_when_toolbox_at_bottom_witness :
  initialized (this (ready (showing metrics_bottom))) = true
  /\ workspace_ (this (ready (showing metrics_bottom))) = Some theWorkspace
  /\ metricsNow (workspace (ready (showing metrics_bottom)))
     = Some metrics_bottom
  /\ toolboxPosition metrics_bottom = 1
  /\ Some (top_ (this (after (position 2 1 15
                                (ready (showing metrics_bottom))))))
     = Some 20.
Proof.
  assert (initialized (this (ready (showing metrics_bottom))) = true) as Hi
    by (vm_compute; reflexivity).
  assert (workspace_ (this (ready (showing metrics_bottom)))
          = Some theWorkspace) as Hws by (vm_compute; reflexivity).
  assert (metricsNow (workspace (ready (showing metrics_bottom)))
          = Some metrics_bottom) as Hm by (vm_compute; reflexivity).
  refine (conj Hi (conj Hws (conj Hm (conj eq_refl _)))).
  exact (position_top_when_toolbox_at_bottom 2 1 15
           (ready (showing metrics_bottom)) theWorkspace metrics_bottom
           Hi Hws Hm eq_refl).
Defined.

(** Toolbox on the right: left 20 + 15 = 35, top 600 + 0 - 44 - 20 = 536. *)
Lemma position_opposite_corner_witness :
  initialized (this (ready (showing metrics_right))) = true
  /\ verticalSpacing_ (this (ready (showing metrics_right))) = Some 20
  /\ workspace_ (this (ready (showing metrics_right))) = Some theWorkspace
  /\ metricsNow (workspace (ready (showing metrics_right)))
     = Some metrics_right
  /\ exact_left_edge 15 = true
  /\ exact_bottom_edge metrics_right 20 = true
  /\ left_ (this (after (position 2 1 15 (ready (showing metrics_right)))))
     = 35
  /\ top_ (this (after (position 2 1 15 (ready (showing metrics_right)))))
     = 536.
Proof.
  assert (initialized (this (ready (showing metrics_right))) = true) as Hi
    by (vm_compute; reflexivity).
  assert (verticalSpacing_ (this (ready (showing metrics_right))) = Some 20)
    as Hv by (vm_compute; reflexivity).
  assert (workspace_ (this (ready (showing metrics_right)))
          = Some theWorkspace) as Hws by (vm_compute; reflexivity).
  assert (metricsNow (workspace (ready (showing metrics_right)))
          = Some metrics_right) as Hm by (vm_compute; reflexivity).
  destruct (position_opposite_corner 2 1 15
              (ready (showing metrics_right)) theWorkspace metrics_right 20
              Hi Hv Hws Hm) as [Hleft Htop].
  assert (exact_left_edge 15 = true) as Hel by (vm_compute; reflexivity).
  assert (exact_bottom_edge metrics_right 20 = true) as Heb
    by (vm_compute; reflexivity).
  refine (conj Hi (conj Hv (conj Hws (conj Hm
            (conj Hel (conj Heb (conj _ _))))))).
  - apply Hleft.
    + vm_compute. discriminate.
    + vm_compute. intros [H _]. discriminate H.
    + exact Hel.
  - apply Htop.
    + vm_compute. discriminate.
    + exact Heb.
Defined.

(** A freshly constructed widget: [position] leaves the page as it is. *)
Lemma position_before_init_is_noop_witness :
  verticalSpacing_ (this (new_page (showing metrics_left))) = None
  /\ position 2 1 15 (new_page (showing metrics_left))
     = (new_page (showing metrics_left), Normal tt).
Proof.
  split; [reflexivity|].
  apply (position_before_init_is_noop 2 1 15
           (new_page (showing metrics_left)) eq_refl).
Defined.

(** A ready widget on a hidden workspace. *)
Lemma position_without_metrics_is_noop_witness :
  initialized (this (ready hidden)) = true
  /\ workspace_ (this (ready hidden)) = Some theWorkspace
  /\ metricsNow (workspace (ready hidden)) = None
  /\ this (after (position 2 1 15 (ready hidden))) = this (ready hidden).
Proof.
  assert (initialized (this (ready hidden)) = true) as Hi
    by (vm_compute; reflexivity).
  assert (workspace_ (this (ready hidden)) = Some theWorkspace) as Hws
    by (vm_compute; reflexivity).
  assert (metricsNow (workspace (ready hidden)) = None) as Hm
    by (vm_compute; reflexivity).
  refine (conj Hi (conj Hws (conj Hm _))).
  apply (position_without_metrics_is_noop 2 1 15 (ready hidden)
           theWorkspace Hi Hws Hm).
Defined.

(** [init (-20)], then [createDom], [position] and a press on Undo. *)
Lemma zero_spacing_counts_as_uninitialized_witness :
  forallb (fun op => negb (is_init op))
    [OpCreateDom "4821"; OpPosition; OpEvent Method.undoMouseDown_] = true
  /\ position 2 1 15
       (run 2 1 15
          [OpCreateDom "4821"; OpPosition; OpEvent Method.undoMouseDown_]
          (after (init (-20) (new_page (showing metrics_left)))))
     = (run 2 1 15
          [OpCreateDom "4821"; OpPosition; OpEvent Method.undoMouseDown_]
          (after (init (-20) (new_page (showing metrics_left)))),
        Normal tt).
Proof.
  split; [reflexivity|].
  apply (zero_spacing_counts_as_uninitialized 2 1 15
           (new_page (showing metrics_left))
           [OpCreateDom "4821"; OpPosition; OpEvent Method.undoMouseDown_]
           eq_refl).
Defined.

(** *** Runs for the further properties *)

(** A press on "Undo" after [dispose]. *)
Lemma mousedown_without_workspace_witness :
  workspace_ (this disposed) = None
  /\ call Method.undoMouseDown_ disposed
     = (after (console_log "undo mouse down event" disposed), Throw TypeError).
Proof.
  assert (workspace_ (this disposed) = None) as H by (vm_compute; reflexivity).
  refine (conj H _).
  apply (mousedown_without_workspace disposed H).
Defined.

(** A second [createDom] and a [dispose] on a ready widget: the first
    root group, node 0, is as it was. *)
Lemma createDom_dispose_keeps_earlier_nodes_witness :
  (0 < length (document (ready (showing metrics_left))))%nat
  /\ document (after (dispose (after (createDom "7310"
                                        (ready (showing metrics_left))))))
     !! 0%nat
     = document (ready (showing metrics_left)) !! 0%nat.
Proof.
  assert (0 < length (document (ready (showing metrics_left))))%nat as H
    by (vm_compute; lia).
  refine (conj H _).
  exact (createDom_dispose_keeps_earlier_nodes "7310"
           (ready (showing metrics_left)) 0 H).
Defined.

(** [position] on a ready widget, toolbox on the left. *)
Lemma position_writes_transform_witness :
  initialized (this (ready (showing metrics_left))) = true
  /\ workspace_ (this (ready (showing metrics_left))) = Some theWorkspace
  /\ metricsNow (workspace (ready (showing metrics_left))) = Some metrics_left
  /\ svgGroup_ (this (ready (showing metrics_left))) = Some 0%nat
  /\ (0 < length (document (ready (showing metrics_left))))%nat
  /\ verticalSpacing_ (this (ready (showing metrics_left))) = Some 20
  /\ exact_right_edge 15 metrics_left = true
  /\ exact_left_edge 15 = true
  /\ exact_bottom_edge metrics_left 20 = true
  /\ transform_of (after (position 2 1 15 (ready (showing metrics_left))))
     = Some ("translate("
             +:+ pretty (left_ (this (after (position 2 1 15
                                  (ready (showing metrics_left))))))
             +:+ ","
             +:+ pretty (top_ (this (after (position 2 1 15
                                  (ready (showing metrics_left))))))
             +:+ ")").
Proof.
  assert (initialized (this (ready (showing metrics_left))) = true) as Hi
    by (vm_compute; reflexivity).
  assert (workspace_ (this (ready (showing metrics_left))) = Some theWorkspace)
    as Hws by (vm_compute; reflexivity).
  assert (metricsNow (workspace (ready (showing metrics_left)))
          = Some metrics_left) as Hm by (vm_compute; reflexivity).
  assert (svgGroup_ (this (ready (showing metrics_left))) = Some 0%nat) as Hg
    by (vm_compute; reflexivity).
  assert (0 < length (document (ready (showing metrics_left))))%nat as Hlt
    by (vm_compute; lia).
  assert (verticalSpacing_ (this (ready (showing metrics_left))) = Some 20)
    as Hv by (vm_compute; reflexivity).
  assert (exact_right_edge 15 metrics_left = true) as Her
    by (vm_compute; reflexivity).
  assert (exact_left_edge 15 = true) as Hel by (vm_compute; reflexivity).
  assert (exact_bottom_edge metrics_left 20 = true) as Heb
    by (vm_compute; reflexivity).
  refine (conj Hi (conj Hws (conj Hm (conj Hg (conj Hlt
            (conj Hv (conj Her (conj Hel (conj Heb _))))))))).
  apply (position_writes_transform 2 1 15 (ready (showing metrics_left))
           theWorkspace metrics_left 0 20 Hi Hv Hws Hm Hg Hlt Her Hel Heb).
Defined.

(** [position] on a widget initialized without its DOM: the coordinates
    are stored, then the call throws. *)
Lemma position_failure_modes_witness :
  initialized (this without_dom) = true
  /\ verticalSpacing_ (this without_dom) = Some 20
  /\ exact_right_edge 15 metrics_left = true
  /\ exact_left_edge 15 = true
  /\ exact_bottom_edge metrics_left 20 = true
  /\ outcome (position 2 1 15 without_dom) = Throw TypeError
  /\ left_ (this (after (position 2 1 15 without_dom))) = 818
  /\ top_ (this (after (position 2 1 15 without_dom))) = 536.
Proof.
  assert (initialized (this without_dom) = true) as Hi
    by (vm_compute; reflexivity).
  assert (verticalSpacing_ (this without_dom) = Some 20) as Hv
    by (vm_compute; reflexivity).
  assert (exact_right_edge 15 metrics_left = true) as Her
    by (vm_compute; reflexivity).
  assert (exact_left_edge 15 = true) as Hel by (vm_compute; reflexivity).
  assert (exact_bottom_edge metrics_left 20 = true) as Heb
    by (vm_compute; reflexivity).
  refine (conj Hi (conj Hv (conj Her (conj Hel (conj Heb _))))).
  destruct (position_failure_modes 2 1 15 without_dom 20 Hi Hv)
    as (Ho & _ & _ & Hl & Ht).
  exact (conj Ho (conj (Hl Her Hel) (Ht Heb))).
Defined.

(** [init 0] and [position] on a widget with its DOM built, toolbox on
    the left: [position] completes, the top offset is 536, and the
    extent 64 is the distance from the bottom of the view, 600, up to
    it. *)
Lemma init_extent_reaches_far_edge_witness :
  MARGIN_BOTTOM_ + 0 <> 0
  /\ exact_init 0 = true
  /\ exact_bottom_edge metrics_left (MARGIN_BOTTOM_ + 0) = true
  /\ workspace_ (this (mounted_page (showing metrics_left)))
     = Some theWorkspace
  /\ metricsNow (workspace (mounted_page (showing metrics_left)))
     = Some metrics_left
  /\ outcome (position 2 1 15
                (after (init 0 (mounted_page (showing metrics_left)))))
     = Normal tt
  /\ outcome (init 0 (mounted_page (showing metrics_left)))
     = Normal (600 + 0
               - top_ (this (after (position 2 1 15
                   (after (init 0 (mounted_page (showing metrics_left)))))))).
Proof.
  assert (MARGIN_BOTTOM_ + 0 <> 0) as Hne by (vm_compute; discriminate).
  assert (exact_init 0 = true) as Hei by (vm_compute; reflexivity).
  assert (exact_bottom_edge metrics_left (MARGIN_BOTTOM_ + 0) = true) as Heb
    by (vm_compute; reflexivity).
  assert (workspace_ (this (mounted_page (showing metrics_left)))
          = Some theWorkspace) as Hws by (vm_compute; reflexivity).
  assert (metricsNow (workspace (mounted_page (showing metrics_left)))
          = Some metrics_left) as Hm by (vm_compute; reflexivity).
  assert (outcome (position 2 1 15
                     (after (init 0 (mounted_page (showing metrics_left)))))
          = Normal tt) as Ho by (vm_compute; reflexivity).
  refine (conj Hne (conj Hei (conj Heb (conj Hws (conj Hm (conj Ho _)))))).
  exact (init_extent_reaches_far_edge 2 1 15
           (mounted_page (showing metrics_left)) theWorkspace metrics_left 0
           Hne Hei Heb Hws Hm).
Defined.

(** A whole life of a widget. *)
Lemma lifecycle_never_throws_witness :
  is_null (workspace_ (this (new_page (showing metrics_left)))) = false
  /\ forallb (fun op => negb (is_dispose op))
       [OpInit 0; OpPosition; press false; OpEvent Method.undoMouseOver_;
        press true; OpPosition] = true
  /\ Forall (fun r => r = Normal tt)
       (outcomes 2 1 15
          (OpCreateDom "4821"
           :: [OpInit 0; OpPosition; press false;
               OpEvent Method.undoMouseOver_; press true; OpPosition]
              ++ [OpDispose])
          (new_page (showing metrics_left))).
Proof.
  refine (conj eq_refl (conj eq_refl _)).
  exact (lifecycle_never_throws 2 1 15 "4821"
           [OpInit 0; OpPosition; press false; OpEvent Method.undoMouseOver_;
            press true; OpPosition]
           (new_page (showing metrics_left)) eq_refl eq_refl).
Defined.

(** Undo, Redo, Undo. *)
Lemma presses_reach_workspace_in_order_witness :
  workspace_ (this (new_page hidden)) = Some theWorkspace
  /\ callLog (workspace (run 2 1 15 (press <$> [false; true; false])
                           (new_page hidden)))
     = [CallUndo false; CallUndo true; CallUndo false].
Proof.
  refine (conj eq_refl _).
  apply (presses_reach_workspace_in_order 2 1 15 [false; true; false]
           (new_page hidden) theWorkspace eq_refl).
Defined.
